(** * DisplayResUtil: a shallow embedding of [DisplayResUtil.py]

    The utility queries, lists and changes the resolution of the primary
    display.  Everything it does is a sequence of [print] calls and of calls
    into the Windows display API, so the embedding is a small trace-and-error
    monad: a computation yields the events it performed, in order, together
    with either the value it returned or the Python exception it raised. *)

From Stdlib Require Import ZArith String List Bool Lia Permutation Sorted.
From Stdlib Require Import DecimalString.
Import ListNotations.

Local Open Scope string_scope.
Local Open Scope Z_scope.

(** ** Python values *)

(** A display mode as the utility tracks it: the tuple [(width, height)]. *)
Definition Resolution : Type := (Z * Z)%type.

Definition area (x : Resolution) : Z := fst x * snd x.

Definition Resolution_eqb (a b : Resolution) : bool :=
  (fst a =? fst b) && (snd a =? snd b).

(** The exceptions that occur in the program: the stubs raise
    [NotImplementedError], operations on [None] raise [TypeError], and
    pywin32 raises [pywintypes.error]. *)
Inductive exn : Type :=
| NotImplementedError
| TypeError
| pywintypes_error.

(** An argument that is an [int] or [None]. *)
Definition pyint : Type := option Z.

(** Python truthiness of an int-or-None: [None] and [0] are false. *)
Definition truthy (v : pyint) : bool :=
  match v with
  | None => false
  | Some z => negb (z =? 0)
  end.

(** [str(n)] for an int. *)
Definition str_int (z : Z) : string := NilZero.string_of_int (Z.to_int z).

(** What an f-string renders for [{v}]. *)
Definition fmt (v : pyint) : string :=
  match v with
  | None => "None"
  | Some z => str_int z
  end.

(** [current_mode == (width, height)], where [current_mode] is a tuple of
    ints or [None] and [width], [height] are ints or [None]. *)
Definition mode_eqb (current_mode : option Resolution) (req : pyint * pyint) : bool :=
  match current_mode, req with
  | Some (cw, ch), (Some w, Some h) => (cw =? w) && (ch =? h)
  | _, _ => false
  end.

(** ** Python sets of resolutions

    A set is represented by its distinct elements in order of first
    insertion.  The order in which Python iterates over a set is decided by
    the hash table and is not the insertion order; it is a parameter
    ([set_iter]) of the operations that iterate. *)
Definition pyset : Type := list Resolution.

Definition set_mem (x : Resolution) (s : pyset) : bool :=
  existsb (Resolution_eqb x) s.

Definition set_add (x : Resolution) (s : pyset) : pyset :=
  if set_mem x s then s else (s ++ [x])%list.

(** [(width, height) in modes] for a set of int pairs. *)
Definition tuple_in (req : pyint * pyint) (s : pyset) : bool :=
  match req with
  | (Some w, Some h) => set_mem (w, h) s
  | _ => false
  end.

(** ** [sorted(..., key=..., reverse=True)]

    Python's [sorted] is stable, also with [reverse=True]: elements with
    equal keys keep the order in which the iterable produced them.  A stable
    sort has one possible output, so insertion sort stands for it. *)
Section Sorted.
Context {A : Type}.
Variable key : A -> Z.

Fixpoint insert_desc (x : A) (l : list A) : list A :=
  match l with
  | [] => [x]
  | y :: l' => if key x <? key y then y :: insert_desc x l' else x :: y :: l'
  end.

Fixpoint sorted_reverse (l : list A) : list A :=
  match l with
  | [] => []
  | x :: l' => insert_desc x (sorted_reverse l')
  end.
End Sorted.

(** ** The Windows display API *)

(** The fields of a [DEVMODE] structure that the program reads or writes,
    and the refresh rate that distinguishes otherwise equal modes. *)
Record DEVMODE : Type := mkDEVMODE {
  PelsWidth : Z;
  PelsHeight : Z;
  BitsPerPel : Z;
  DisplayFrequency : Z;
  Fields : Z
}.

(** [win32con.DM_PELSWIDTH] and [win32con.DM_PELSHEIGHT]. *)
Definition DM_PELSWIDTH : Z := 0x80000.
Definition DM_PELSHEIGHT : Z := 0x100000.

(** The host's display subsystem as the program observes it.
    [display_settings] is the driver's table of modes:
    [EnumDisplaySettings(None, i)] returns its [i]-th entry and raises
    [pywintypes.error] past its end.  [system_metrics] answers
    [GetSystemMetrics].  [change_display_settings] is the outcome of
    [ChangeDisplaySettings]: its return code, or [None] when the call
    raises. *)
Record Win32 : Type := mkWin32 {
  display_settings : list DEVMODE;
  system_metrics : Z -> Z;
  change_display_settings : option DEVMODE -> Z -> option Z
}.

(** ** Events and the monad *)

Inductive native_call : Type :=
| SetProcessDpiAwareness (value : Z)
| SetProcessDPIAware
| GetSystemMetrics (nIndex : Z)
| EnumDisplaySettings (ModeNum : nat)
| EnumDisplaySettings_noargs
| ChangeDisplaySettings (mode : option DEVMODE) (flags : Z).

Inductive event : Type :=
| Print (line : string)
| PrintHelp
| Native (c : native_call).

Inductive result (A : Type) : Type :=
| Returns (a : A)
| Raises (e : exn).
Arguments Returns {A} a.
Arguments Raises {A} e.

Definition M (A : Type) : Type := (list event * result A)%type.

Definition ret {A} (a : A) : M A := ([], Returns a).

Definition raise {A} (e : exn) : M A := ([], Raises e).

Definition bind {A B} (m : M A) (f : A -> M B) : M B :=
  match m with
  | (t, Returns a) => let (t', r) := f a in ((t ++ t')%list, r)
  | (t, Raises e) => (t, Raises e)
  end.

Notation "x <- m ;; k" := (bind m (fun x => k))
  (at level 61, m at next level, right associativity).
Notation "m ;; k" := (bind m (fun _ => k))
  (at level 61, right associativity).

Definition print (line : string) : M unit := ([Print line], Returns tt).

Definition native (c : native_call) : M unit := ([Native c], Returns tt).

(** [for x in l: body(x)] *)
Fixpoint for_each {A} (l : list A) (body : A -> M unit) : M unit :=
  match l with
  | [] => ret tt
  | x :: l' => body x ;; for_each l' body
  end.

Definition trace {A} (m : M A) : list event := fst m.
Definition outcome {A} (m : M A) : result A := snd m.

(** ** The command line *)

(** The namespace [parser.parse_args()] returns: [--set N M] stores the two
    ints in [dimensions], [--current] and [--list] are flags. *)
Record Namespace : Type := mkNamespace {
  dimensions : option (Z * Z);
  current : bool;
  modes : bool
}.

(** ** class DisplayResUtil *)

Section DisplayResUtil.
(** [sys.platform] *)
Variable platform : string.
Variable os : Win32.
(** The order in which iterating over a set yields its elements. *)
Variable set_iter : pyset -> list Resolution.

(** *** Native calls *)

Definition call_EnumDisplaySettings (i : nat) : M DEVMODE :=
  native (EnumDisplaySettings i) ;;
  match nth_error (display_settings os) i with
  | Some mode => ret mode
  | None => raise pywintypes_error
  end.

(** [win32api.EnumDisplaySettings()]: pywin32's defaults are
    [DeviceName=None] and [ModeNum=0]. *)
Definition call_EnumDisplaySettings_noargs : M DEVMODE :=
  native EnumDisplaySettings_noargs ;;
  match nth_error (display_settings os) 0 with
  | Some mode => ret mode
  | None => raise pywintypes_error
  end.

Definition call_GetSystemMetrics (n : Z) : M Z :=
  native (GetSystemMetrics n) ;;
  ret (system_metrics os n).

Definition call_ChangeDisplaySettings (mode : option DEVMODE) (flags : Z) : M Z :=
  native (ChangeDisplaySettings mode flags) ;;
  match change_display_settings os mode flags with
  | Some code => ret code
  | None => raise pywintypes_error
  end.

(** *** The Windows backend *)

(** The [while True] loop of [_win32_get_modes] inside its
    [try]/[except error: pass], from index [i] on.  [rest] is the part of
    the driver's table from index [i]: the call
    [EnumDisplaySettings(None, i)] returns its head, and raises the
    [error] that ends the loop when it is empty
    (see [_win32_get_modes_loop_native]). *)
Fixpoint _win32_get_modes_loop (rest : list DEVMODE) (i : nat) (modes : pyset)
  : M pyset :=
  match rest with
  | mode :: rest' =>
      native (EnumDisplaySettings i) ;;
      _win32_get_modes_loop rest' (S i)
        (set_add (PelsWidth mode, PelsHeight mode) modes)
  | [] =>
      native (EnumDisplaySettings i) ;;
      ret modes
  end.

Definition _win32_get_modes : M pyset :=
  _win32_get_modes_loop (display_settings os) 0 [].

Definition _win32_get : M Resolution :=
  native (SetProcessDpiAwareness 2) ;;
  native SetProcessDPIAware ;;
  w <- call_GetSystemMetrics 0 ;;
  h <- call_GetSystemMetrics 1 ;;
  ret (w, h).

Definition _win32_set (width height depth : pyint) : M unit :=
  let depth := if negb (truthy depth) then Some 32 else depth in
  if negb (truthy width) || negb (truthy height) then
    call_ChangeDisplaySettings None 0 ;;
    ret tt
  else
    match width, height, depth with
    | Some w, Some h, Some d =>
        mode <- call_EnumDisplaySettings_noargs ;;
        let mode := mkDEVMODE w h d (DisplayFrequency mode)
                      (Z.lor DM_PELSWIDTH DM_PELSHEIGHT) in
        call_ChangeDisplaySettings (Some mode) 0 ;;
        ret tt
    | _, _, _ => raise TypeError
    end.

(** *** The Linux and macOS stubs *)

Definition _linux_set (width height depth : pyint) : M unit :=
  raise NotImplementedError.
Definition _linux_get : M Resolution := raise NotImplementedError.
Definition _linux_get_modes : M pyset := raise NotImplementedError.
Definition _osx_set (width height depth : pyint) : M unit :=
  raise NotImplementedError.
Definition _osx_get : M Resolution := raise NotImplementedError.
Definition _osx_get_modes : M pyset := raise NotImplementedError.

(** *** The dispatching class methods

    A method whose [if]/[elif] chain matches no platform falls off its end
    and returns [None]. *)

Definition get : M (option Resolution) :=
  if String.eqb platform "win32" then
    r <- _win32_get ;; ret (Some r)
  else if prefix "linux" platform then
    r <- _linux_get ;; ret (Some r)
  else if prefix "darwin" platform then
    r <- _osx_get ;; ret (Some r)
  else ret None.

Definition get_modes : M (option pyset) :=
  if String.eqb platform "win32" then
    s <- _win32_get_modes ;; ret (Some s)
  else if prefix "linux" platform then
    s <- _linux_get_modes ;; ret (Some s)
  else if prefix "darwin" platform then
    s <- _osx_get_modes ;; ret (Some s)
  else ret None.

(** [sorted(None, ...)] raises [TypeError]. *)
Definition get_modes_sorted : M (list Resolution) :=
  modes <- get_modes ;;
  match modes with
  | Some s => ret (sorted_reverse area (set_iter s))
  | None => raise TypeError
  end.

(** The line printed for one mode of the listing. *)
Definition mode_line (current_mode : option Resolution) (mode : Resolution)
  : string :=
  if mode_eqb current_mode (Some (fst mode), Some (snd mode)) then
    "    " ++ str_int (fst mode) ++ " x " ++ str_int (snd mode) ++ " *"
  else
    "    " ++ str_int (fst mode) ++ " x " ++ str_int (snd mode).

Definition print_modes (current_mode : option Resolution)
    (modes : list Resolution) : M unit :=
  for_each modes (fun mode => print (mode_line current_mode mode)).

Definition set (width height depth : pyint) : M unit :=
  current_mode <- get ;;
  if mode_eqb current_mode (width, height) then
    print ("Resolution is already set to " ++ fmt width ++ " x " ++ fmt height)
  else
    modes <- get_modes ;;
    match modes with
    | None => raise TypeError
    | Some modes =>
        if negb (tuple_in (width, height) modes) then
          print (fmt width ++ " x " ++ fmt height ++ " is not an available mode.") ;;
          print "Available Modes:" ;;
          modes <- get_modes_sorted ;;
          print_modes current_mode modes
        else
          (if truthy width && truthy height then
             print ("Setting resolution to " ++ fmt width ++ " x " ++ fmt height)
           else
             print "Setting resolution to defaults") ;;
          if String.eqb platform "win32" then
            _win32_set width height depth
          else if prefix "linux" platform then
            _linux_set width height depth
          else if prefix "darwin" platform then
            _osx_set width height depth
          else ret tt
    end.

(** *** [if __name__ == "__main__"] *)

Definition main (args : Namespace) : M unit :=
  match dimensions args with
  | Some (w, h) => set (Some w) (Some h) (Some 32)
  | None =>
      if current args then
        mode <- get ;;
        match mode with
        | Some mode =>
            print ("Current Mode: " ++ str_int (fst mode) ++ " x "
                     ++ str_int (snd mode))
        | None => raise TypeError
        end
      else if modes args then
        print "Available Modes:" ;;
        modes <- get_modes_sorted ;;
        current_mode <- get ;;
        print_modes current_mode modes
      else
        ([PrintHelp], Returns tt)
  end.
End DisplayResUtil.

Arguments get platform os : assert.
Arguments get_modes platform os : assert.
Arguments get_modes_sorted platform os set_iter : assert.
Arguments set platform os set_iter width height depth : assert.
Arguments main platform os set_iter args : assert.

(** ** Concrete hosts used in the examples *)

Definition mode_1920x1080 : DEVMODE := mkDEVMODE 1920 1080 32 60 0.
Definition mode_1280x720 : DEVMODE := mkDEVMODE 1280 720 32 60 0.
Definition mode_1280x720_75Hz : DEVMODE := mkDEVMODE 1280 720 32 75 0.
Definition mode_800x600 : DEVMODE := mkDEVMODE 800 600 32 60 0.
Definition mode_0x600 : DEVMODE := mkDEVMODE 0 600 32 60 0.

(** A display at 1280 x 720 whose driver advertises three resolutions, one
    of them at two refresh rates; mode changes succeed. *)
Definition desktop : Win32 :=
  mkWin32 [mode_800x600; mode_1280x720; mode_1280x720_75Hz; mode_1920x1080]
    (fun n => if n =? 0 then 1280 else 720)
    (fun _ _ => Some 0).

(** The same display with a driver that refuses every mode change by
    raising. *)
Definition stubborn : Win32 :=
  mkWin32 (display_settings desktop) (system_metrics desktop)
    (fun _ _ => None).

(** A display whose current resolution (as [GetSystemMetrics] reports it)
    is not among the advertised modes. *)
Definition scaled : Win32 :=
  mkWin32 [mode_800x600] (fun n => if n =? 0 then 1024 else 768)
    (fun _ _ => Some 0).

(** A driver that advertises a mode of width zero. *)
Definition degenerate : Win32 :=
  mkWin32 [mode_0x600; mode_800x600] (fun n => if n =? 0 then 800 else 600)
    (fun _ _ => Some 0).

(** A display that can be rotated: the driver advertises 800 x 600 and
    600 x 800, two modes of equal area. *)
Definition pivot : Win32 :=
  mkWin32 [mode_800x600; mkDEVMODE 600 800 32 60 0; mode_1920x1080]
    (fun n => if n =? 0 then 800 else 600)
    (fun _ _ => Some 0).

(** The desktop display with a driver that answers every mode change with
    the failure code [DISP_CHANGE_BADMODE]. *)
Definition refusing : Win32 :=
  mkWin32 (display_settings desktop) (system_metrics desktop)
    (fun _ _ => Some (-2)).

(** A host whose driver advertises no mode at all. *)
Definition headless : Win32 :=
  mkWin32 [] (fun n => if n =? 0 then 1024 else 768) (fun _ _ => Some 0).

(** The namespaces of the four command lines. *)
Definition args_set (w h : Z) : Namespace := mkNamespace (Some (w, h)) false false.
Definition args_current : Namespace := mkNamespace None true false.
Definition args_list : Namespace := mkNamespace None false true.
Definition args_none : Namespace := mkNamespace None false false.

(** Iteration in insertion order, and in the opposite order. *)
Definition iter_insertion (s : pyset) : list Resolution := s.
Definition iter_reversed (s : pyset) : list Resolution := rev s.

(** ** Vocabulary of the statements *)

(** The events of one call of [get] on Windows. *)
Definition get_trace : list event :=
  [Native (SetProcessDpiAwareness 2); Native SetProcessDPIAware;
   Native (GetSystemMetrics 0); Native (GetSystemMetrics 1)].

(** The events of one enumeration of a driver table of [n] modes, started at
    index [i]: one call per entry and the call that fails. *)
Definition enum_trace (i n : nat) : list event :=
  map (fun k => Native (EnumDisplaySettings k)) (seq i (S n)).

(** The pairs a driver table contributes to a set, left to right. *)
Definition collect (table : list DEVMODE) (s : pyset) : pyset :=
  fold_left (fun acc mode => set_add (PelsWidth mode, PelsHeight mode) acc)
    table s.

(** The native mode-change calls of a trace, with their arguments. *)
Fixpoint apply_calls (t : list event) : list (option DEVMODE * Z) :=
  match t with
  | [] => []
  | Native (ChangeDisplaySettings mode flags) :: t' =>
      (mode, flags) :: apply_calls t'
  | _ :: t' => apply_calls t'
  end.

Definition is_EnumDisplaySettings (e : event) : bool :=
  match e with
  | Native (EnumDisplaySettings _) => true
  | Native EnumDisplaySettings_noargs => true
  | _ => false
  end.

(** The lines written to standard output, in order. *)
Fixpoint printed (t : list event) : list string :=
  match t with
  | [] => []
  | Print line :: t' => line :: printed t'
  | _ :: t' => printed t'
  end.

(** The colour depth [_win32_set] uses: 32 when [depth] is unset or zero. *)
Definition effective_depth (depth : pyint) : Z :=
  match depth with
  | None => 32
  | Some d => if d =? 0 then 32 else d
  end.

(** The message [set] prints before it hands over to the backend. *)
Definition setting_message (width height : pyint) : string :=
  if truthy width && truthy height then
    "Setting resolution to " ++ fmt width ++ " x " ++ fmt height
  else "Setting resolution to defaults".

(** How a call of [ChangeDisplaySettings] ends for its caller: the return
    code is dropped, a raised [error] goes up. *)
Definition apply_outcome (r : option Z) : result unit :=
  match r with
  | Some _ => Returns tt
  | None => Raises pywintypes_error
  end.

(** The two forms of a line of the listing. *)
Definition plain_line (mode : Resolution) : string :=
  "    " ++ str_int (fst mode) ++ " x " ++ str_int (snd mode).

Definition marked_line (mode : Resolution) : string :=
  "    " ++ str_int (fst mode) ++ " x " ++ str_int (snd mode) ++ " *".

(** The indices of the calls [EnumDisplaySettings(None, i)] of a trace. *)
Fixpoint enumeration_calls (t : list event) : list nat :=
  match t with
  | [] => []
  | Native (EnumDisplaySettings i) :: t' => i :: enumeration_calls t'
  | _ :: t' => enumeration_calls t'
  end.

(** What [main] does on a platform whose queries all end in the error [e]
    without output. *)
Definition main_failing (e : exn) (args : Namespace) : M unit :=
  match dimensions args with
  | Some _ => ([], Raises e)
  | None =>
      if current args then ([], Raises e)
      else if modes args then ([Print "Available Modes:"], Raises e)
      else ([PrintHelp], Returns tt)
  end.

(** * Lemmas *)

(** ** The monad *)

Lemma bind_Returns {A B} (t : list event) (a : A) (f : A -> M B) :
  bind (t, Returns a) f = ((t ++ trace (f a))%list, outcome (f a)).
Proof. unfold bind, trace, outcome. destruct (f a); reflexivity. Qed.

Lemma bind_Raises {A B} (t : list event) (e : exn) (f : A -> M B) :
  bind (t, Raises e) f = (t, Raises e).
Proof. reflexivity. Qed.

Lemma M_eta {A} (m : M A) : m = (trace m, outcome m).
Proof. destruct m; reflexivity. Qed.

Lemma print_modes_eq (cur : option Resolution) (l : list Resolution) :
  print_modes cur l = (map (fun m => Print (mode_line cur m)) l, Returns tt).
Proof.
  unfold print_modes. induction l as [|m l IH]; simpl.
  - reflexivity.
  - rewrite IH. reflexivity.
Qed.

(** ** Sets *)

Lemma Resolution_eqb_eq (a b : Resolution) : Resolution_eqb a b = true <-> a = b.
Proof.
  destruct a as [a1 a2], b as [b1 b2]; unfold Resolution_eqb; simpl.
  rewrite andb_true_iff, !Z.eqb_eq. split.
  - intros [-> ->]; reflexivity.
  - intros H; inversion H; auto.
Qed.

Lemma set_mem_In (x : Resolution) (s : pyset) : set_mem x s = true <-> In x s.
Proof.
  unfold set_mem. rewrite existsb_exists. split.
  - intros [y [Hy E]]. apply Resolution_eqb_eq in E. subst; assumption.
  - intros H. exists x. split; [assumption | apply Resolution_eqb_eq; reflexivity].
Qed.

Lemma set_add_In (x y : Resolution) (s : pyset) :
  In y (set_add x s) <-> y = x \/ In y s.
Proof.
  unfold set_add. destruct (set_mem x s) eqn:E.
  - apply set_mem_In in E. split; [auto | intros [-> | H]; assumption].
  - rewrite in_app_iff. simpl. intuition.
Qed.

Lemma set_add_NoDup (x : Resolution) (s : pyset) : NoDup s -> NoDup (set_add x s).
Proof.
  intros H. unfold set_add. destruct (set_mem x s) eqn:E; [assumption|].
  assert (Hx : ~ In x s).
  { intros Hin. apply set_mem_In in Hin. congruence. }
  clear E. induction H as [|y s Hy Hs IH]; simpl.
  - constructor; [intros [] | constructor].
  - constructor.
    + rewrite in_app_iff. simpl. intros [H | [H | []]].
      * contradiction.
      * apply Hx. left. symmetry. assumption.
    + apply IH. intros H. apply Hx. right. assumption.
Qed.

Lemma collect_In (table : list DEVMODE) (s : pyset) (r : Resolution) :
  In r (collect table s) <->
  In r s \/ exists mode, In mode table /\ r = (PelsWidth mode, PelsHeight mode).
Proof.
  unfold collect. revert s. induction table as [|m table IH]; intros s; simpl.
  - split; [auto | intros [H | [mode [[] _]]]; assumption].
  - rewrite IH, set_add_In. split.
    + intros [[-> | H] | [mode [Hm E]]].
      * right. exists m. auto.
      * left. assumption.
      * right. exists mode. auto.
    + intros [H | [mode [[-> | Hm] E]]].
      * left. right. assumption.
      * left. left. assumption.
      * right. exists mode. auto.
Qed.

Lemma collect_NoDup (table : list DEVMODE) (s : pyset) :
  NoDup s -> NoDup (collect table s).
Proof.
  unfold collect. revert s. induction table as [|m table IH]; intros s H; simpl.
  - assumption.
  - apply IH, set_add_NoDup, H.
Qed.

(** ** Sorting *)

Section SortedFacts.
Context {A : Type}.
Variable key : A -> Z.

Let key_ge (a b : A) : Prop := key b <= key a.

Lemma insert_desc_Permutation (x : A) (l : list A) :
  Permutation (x :: l) (insert_desc key x l).
Proof.
  induction l as [|y l IH]; simpl.
  - apply Permutation_refl.
  - destruct (key x <? key y).
    + apply perm_trans with (y :: x :: l).
      * apply perm_swap.
      * apply perm_skip, IH.
    + apply Permutation_refl.
Qed.

Lemma sorted_reverse_Permutation (l : list A) :
  Permutation l (sorted_reverse key l).
Proof.
  induction l as [|x l IH]; simpl.
  - apply perm_nil.
  - apply perm_trans with (x :: sorted_reverse key l).
    + apply perm_skip, IH.
    + apply insert_desc_Permutation.
Qed.

Lemma insert_desc_HdRel (a x : A) (l : list A) :
  key_ge a x -> HdRel key_ge a l -> HdRel key_ge a (insert_desc key x l).
Proof.
  intros Hax Hl. destruct l as [|y l]; simpl.
  - constructor. assumption.
  - destruct (key x <? key y); constructor.
    + inversion Hl; assumption.
    + assumption.
Qed.

Lemma insert_desc_Sorted (x : A) (l : list A) :
  Sorted key_ge l -> Sorted key_ge (insert_desc key x l).
Proof.
  induction 1 as [|y l Hl IH Hy]; simpl.
  - repeat constructor.
  - destruct (key x <? key y) eqn:E.
    + constructor; [exact IH|].
      apply insert_desc_HdRel; [|assumption].
      apply Z.ltb_lt in E. unfold key_ge. lia.
    + constructor.
      * constructor; assumption.
      * constructor. apply Z.ltb_ge in E. exact E.
Qed.

Lemma sorted_reverse_Sorted (l : list A) :
  Sorted key_ge (sorted_reverse key l).
Proof.
  induction l as [|x l IH]; simpl.
  - constructor.
  - apply insert_desc_Sorted, IH.
Qed.

(** Stability: the elements of any one key come out in the order in which
    they went in. *)
Lemma insert_desc_filter (k : Z) (x : A) (l : list A) :
  filter (fun y => key y =? k) (insert_desc key x l) =
  filter (fun y => key y =? k) (x :: l).
Proof.
  induction l as [|y l IH]; simpl.
  - reflexivity.
  - destruct (key x <? key y) eqn:E; simpl.
    + simpl in IH. rewrite IH.
      destruct (key x =? k) eqn:Ex; [|reflexivity].
      apply Z.eqb_eq in Ex. apply Z.ltb_lt in E.
      assert (Ey : (key y =? k) = false) by (apply Z.eqb_neq; lia).
      rewrite Ey. reflexivity.
    + reflexivity.
Qed.

Lemma sorted_reverse_stable (k : Z) (l : list A) :
  filter (fun y => key y =? k) (sorted_reverse key l) =
  filter (fun y => key y =? k) l.
Proof.
  induction l as [|x l IH]; simpl.
  - reflexivity.
  - rewrite insert_desc_filter. simpl. rewrite IH. reflexivity.
Qed.
End SortedFacts.

Lemma sorted_reverse_StronglySorted {A : Type} (key : A -> Z) (l : list A) :
  StronglySorted (fun a b => key b <= key a) (sorted_reverse key l).
Proof.
  apply Sorted_StronglySorted.
  - intros a b c Hab Hbc. lia.
  - apply sorted_reverse_Sorted.
Qed.

(** ** The backends *)

Lemma _win32_get_modes_loop_eq (rest : list DEVMODE) (i : nat) (s : pyset) :
  _win32_get_modes_loop rest i s =
  (enum_trace i (length rest), Returns (collect rest s)).
Proof.
  revert i s. induction rest as [|mode rest IH]; intros i s; simpl.
  - reflexivity.
  - rewrite IH. reflexivity.
Qed.

(** The loop does at index [i] what the native call does there: it goes on
    with the mode the call returns and stops, returning the set, when the
    call raises. *)
Lemma _win32_get_modes_loop_native (os : Win32) (i : nat) (s : pyset) :
  _win32_get_modes_loop (skipn i (display_settings os)) i s =
  match call_EnumDisplaySettings os i with
  | (t, Returns mode) =>
      let (t', r) :=
        _win32_get_modes_loop (skipn (S i) (display_settings os)) (S i)
          (set_add (PelsWidth mode, PelsHeight mode) s) in
      ((t ++ t')%list, r)
  | (t, Raises _) => (t, Returns s)
  end.
Proof.
  unfold call_EnumDisplaySettings.
  generalize (display_settings os) as table. intros table.
  assert (H : forall (l : list DEVMODE) (n : nat),
             skipn n l = match nth_error l n with
                         | Some m => m :: skipn (S n) l
                         | None => []
                         end).
  { induction l as [|m l IH]; intros [|n]; simpl; try reflexivity.
    rewrite IH. destruct (nth_error l n); reflexivity. }
  rewrite (H table i). destruct (nth_error table i) as [mode|]; simpl.
  - rewrite !_win32_get_modes_loop_eq. reflexivity.
  - reflexivity.
Qed.

Lemma get_win32 (os : Win32) :
  get "win32" os =
  (get_trace, Returns (Some (system_metrics os 0, system_metrics os 1))).
Proof. reflexivity. Qed.

Lemma get_modes_win32 (os : Win32) :
  get_modes "win32" os =
  (enum_trace 0 (length (display_settings os)),
   Returns (Some (collect (display_settings os) []))).
Proof.
  unfold get_modes, _win32_get_modes. simpl String.eqb. cbv iota.
  rewrite _win32_get_modes_loop_eq, bind_Returns. simpl.
  rewrite app_nil_r. reflexivity.
Qed.

(** How the two queries behave on each kind of platform. *)
Lemma platform_cases (platform : string) (os : Win32) :
  platform = "win32" \/
  (get platform os = ([], Raises NotImplementedError) /\
   get_modes platform os = ([], Raises NotImplementedError)) \/
  (get platform os = ([], Returns None) /\
   get_modes platform os = ([], Returns None)).
Proof.
  unfold get, get_modes.
  destruct (String.eqb platform "win32") eqn:E.
  - left. apply String.eqb_eq. exact E.
  - right. destruct (prefix "linux" platform).
    + left. split; reflexivity.
    + destruct (prefix "darwin" platform).
      * left. split; reflexivity.
      * right. split; reflexivity.
Qed.

Lemma get_modes_Some_win32 (platform : string) (os : Win32) (s : pyset) :
  outcome (get_modes platform os) = Returns (Some s) -> platform = "win32".
Proof.
  destruct (platform_cases platform os) as [H | [[_ H] | [_ H]]];
    [auto | rewrite H; discriminate ..].
Qed.

Lemma get_Some_win32 (platform : string) (os : Win32) (r : Resolution) :
  outcome (get platform os) = Returns (Some r) -> platform = "win32".
Proof.
  destruct (platform_cases platform os) as [H | [[H _] | [H _]]];
    [auto | rewrite H; discriminate ..].
Qed.

(** ** Traces *)

Lemma apply_calls_app (t1 t2 : list event) :
  apply_calls (t1 ++ t2) = (apply_calls t1 ++ apply_calls t2)%list.
Proof.
  induction t1 as [|e t1 IH]; simpl; [reflexivity|].
  destruct e as [line| |c]; try exact IH.
  destruct c; try exact IH. simpl. rewrite IH. reflexivity.
Qed.

Lemma apply_calls_enum_trace (i n : nat) : apply_calls (enum_trace i n) = [].
Proof.
  unfold enum_trace. induction (seq i (S n)) as [|k l IH]; simpl; auto.
Qed.

Lemma apply_calls_prints {A} (f : A -> string) (l : list A) :
  apply_calls (map (fun x => Print (f x)) l) = [].
Proof. induction l as [|x l IH]; simpl; auto. Qed.

Lemma apply_calls_In (t : list event) (mode : option DEVMODE) (flags : Z) :
  In (Native (ChangeDisplaySettings mode flags)) t ->
  In (mode, flags) (apply_calls t).
Proof.
  induction t as [|e t IH]; simpl; [auto|].
  intros [-> | H].
  - left. reflexivity.
  - destruct e as [line| |c]; auto. destruct c; auto. right. auto.
Qed.

Lemma printed_app (t1 t2 : list event) :
  printed (t1 ++ t2) = (printed t1 ++ printed t2)%list.
Proof.
  induction t1 as [|e t1 IH]; simpl; [reflexivity|].
  destruct e; simpl; rewrite IH; reflexivity.
Qed.

Lemma printed_enum_trace (i n : nat) : printed (enum_trace i n) = [].
Proof.
  unfold enum_trace. induction (seq i (S n)) as [|k l IH]; simpl; auto.
Qed.

Lemma printed_prints {A} (f : A -> string) (l : list A) :
  printed (map (fun x => Print (f x)) l) = map f l.
Proof. induction l as [|x l IH]; simpl; [|rewrite IH]; reflexivity. Qed.

(** An event that does not occur in the first part of a trace can only be
    found after that part. *)
Lemma split_after (X Y pre post : list event) (c : event) :
  (X ++ Y)%list = (pre ++ c :: post)%list -> ~ In c X ->
  exists l, pre = (X ++ l)%list.
Proof.
  revert pre. induction X as [|x X IH]; intros pre E Hc; simpl in *.
  - exists pre. reflexivity.
  - destruct pre as [|p pre]; simpl in E.
    + inversion E; subst. exfalso. apply Hc. left. reflexivity.
    + inversion E; subst. destruct (IH pre H1) as [l ->].
      * intros H. apply Hc. right. exact H.
      * exists l. reflexivity.
Qed.

(** ** [set] on Windows *)

Lemma get_modes_sorted_win32 (os : Win32) (iter : pyset -> list Resolution) :
  get_modes_sorted "win32" os iter =
  (enum_trace 0 (length (display_settings os)),
   Returns (sorted_reverse area (iter (collect (display_settings os) [])))).
Proof.
  unfold get_modes_sorted. rewrite get_modes_win32, bind_Returns. simpl.
  rewrite app_nil_r. reflexivity.
Qed.

Lemma set_win32 (os : Win32) (iter : pyset -> list Resolution)
    (width height depth : pyint) :
  let cur := Some (system_metrics os 0, system_metrics os 1) in
  let s := collect (display_settings os) [] in
  let en := enum_trace 0 (length (display_settings os)) in
  set "win32" os iter width height depth =
  if mode_eqb cur (width, height) then
    ((get_trace ++
      [Print ("Resolution is already set to " ++ fmt width ++ " x "
                ++ fmt height)])%list,
     Returns tt)
  else if negb (tuple_in (width, height) s) then
    ((get_trace ++ en ++
      [Print (fmt width ++ " x " ++ fmt height ++ " is not an available mode.");
       Print "Available Modes:"] ++ en ++
      map (fun m => Print (mode_line cur m)) (sorted_reverse area (iter s)))%list,
     Returns tt)
  else
    ((get_trace ++ en ++
      Print (setting_message width height)
      :: trace (_win32_set os width height depth))%list,
     outcome (_win32_set os width height depth)).
Proof.
  intros cur s en. unfold set.
  rewrite get_win32, bind_Returns. fold cur.
  destruct (mode_eqb cur (width, height)); [reflexivity|].
  rewrite get_modes_win32, bind_Returns. fold s en.
  cbv beta iota.
  destruct (negb (tuple_in (width, height) s)).
  - unfold print. rewrite !bind_Returns.
    rewrite get_modes_sorted_win32. fold s en.
    rewrite bind_Returns, print_modes_eq. reflexivity.
  - simpl String.eqb. cbv iota. unfold setting_message.
    destruct (truthy width && truthy height);
      rewrite (M_eta (_win32_set os width height depth)); reflexivity.
Qed.

(** ** [set] elsewhere *)

Lemma set_stub_platform (platform : string) (os : Win32)
    (iter : pyset -> list Resolution) (width height depth : pyint) :
  get platform os = ([], Raises NotImplementedError) ->
  set platform os iter width height depth = ([], Raises NotImplementedError).
Proof. intros H. unfold set. rewrite H. reflexivity. Qed.

Lemma set_unknown_platform (platform : string) (os : Win32)
    (iter : pyset -> list Resolution) (width height depth : pyint) :
  get platform os = ([], Returns None) ->
  get_modes platform os = ([], Returns None) ->
  set platform os iter width height depth = ([], Raises TypeError).
Proof. intros H1 H2. unfold set. rewrite H1. simpl. rewrite H2. reflexivity. Qed.

Lemma set_trace_not_win32 (platform : string) (os : Win32)
    (iter : pyset -> list Resolution) (width height depth : pyint) :
  platform <> "win32" -> trace (set platform os iter width height depth) = [].
Proof.
  intros Hp. destruct (platform_cases platform os) as [H | [[H _] | [H1 H2]]].
  - contradiction.
  - rewrite set_stub_platform by exact H. reflexivity.
  - rewrite set_unknown_platform by assumption. reflexivity.
Qed.

(** The stubs of the two platforms without a backend. *)
Lemma stubs_raise (platform : string) (os : Win32)
    (iter : pyset -> list Resolution) (width height depth : pyint) :
  platform <> "win32" ->
  prefix "linux" platform = true \/ prefix "darwin" platform = true ->
  get platform os = ([], Raises NotImplementedError) /\
  get_modes platform os = ([], Raises NotImplementedError) /\
  set platform os iter width height depth = ([], Raises NotImplementedError).
Proof.
  intros Hp H.
  assert (G : get platform os = ([], Raises NotImplementedError) /\
              get_modes platform os = ([], Raises NotImplementedError)).
  { unfold get, get_modes. destruct (String.eqb platform "win32") eqn:E.
    - apply String.eqb_eq in E. contradiction.
    - destruct (prefix "linux" platform); [split; reflexivity|].
      destruct H as [H | H]; [discriminate|]. rewrite H. split; reflexivity. }
  destruct G as [G1 G2]. repeat split; try assumption.
  apply set_stub_platform, G1.
Qed.

(** * The claims *)

(** C2.  When the requested pair equals the resolution [get] returns, [set]
    prints that the resolution is already set and returns: after the query
    of the current mode it makes no call of [EnumDisplaySettings] and no
    call of [ChangeDisplaySettings]. *)
Theorem set_current_mode_is_noop (platform : string) (os : Win32)
    (iter : pyset -> list Resolution) (w h : Z) (depth : pyint) :
  outcome (get platform os) = Returns (Some (w, h)) ->
  set platform os iter (Some w) (Some h) depth =
    ((trace (get platform os) ++
      [Print ("Resolution is already set to " ++ str_int w ++ " x "
                ++ str_int h)])%list,
     Returns tt) /\
  apply_calls (trace (set platform os iter (Some w) (Some h) depth)) = [] /\
  existsb is_EnumDisplaySettings
    (trace (set platform os iter (Some w) (Some h) depth)) = false.
Proof.
  intros Hget. pose proof (get_Some_win32 _ _ _ Hget) as ->.
  rewrite get_win32 in Hget. simpl in Hget. inversion Hget as [[Hw Hh]].
  rewrite set_win32. cbv zeta. rewrite Hw, Hh.
  unfold mode_eqb. rewrite !Z.eqb_refl. simpl andb. cbv iota.
  rewrite get_win32. repeat split; reflexivity.
Qed.

Lemma set_current_mode_is_noop_witness :
  outcome (get "win32" desktop) = Returns (Some (1280, 720)) /\
  (set "win32" desktop iter_insertion (Some 1280) (Some 720) (Some 32) =
     ((trace (get "win32" desktop) ++
       [Print "Resolution is already set to 1280 x 720"])%list,
      Returns tt) /\
   apply_calls (trace (set "win32" desktop iter_insertion (Some 1280)
                         (Some 720) (Some 32))) = [] /\
   existsb is_EnumDisplaySettings
     (trace (set "win32" desktop iter_insertion (Some 1280) (Some 720)
               (Some 32))) = false).
Proof.
  split; [reflexivity|].
  apply (set_current_mode_is_noop "win32" desktop iter_insertion 1280 720
           (Some 32)).
  reflexivity.
Defined.

(** C1 as stated fails: a pair that is not among the advertised modes but
    equals the current resolution is answered with "already set", not with
    the list of modes. *)
Lemma set_unavailable_current_mode :
  outcome (get_modes "win32" scaled) = Returns (Some [(800, 600)]) /\
  tuple_in (Some 1024, Some 768) [(800, 600)] = false /\
  set "win32" scaled iter_insertion (Some 1024) (Some 768) (Some 32) =
    ((get_trace ++ [Print "Resolution is already set to 1024 x 768"])%list,
     Returns tt) /\
  ~ In (Print "1024 x 768 is not an available mode.")
      (trace (set "win32" scaled iter_insertion (Some 1024) (Some 768)
                (Some 32))).
Proof.
  repeat split; try reflexivity.
  simpl. intros H.
  repeat (destruct H as [H | H]; [discriminate H|]). exact H.
Qed.

(** The marking loop, line by line: the line of a mode is the marked form
    when the mode equals the current resolution and the plain form
    otherwise. *)
Lemma mode_line_marks (cur m : Resolution) :
  mode_line (Some cur) m =
  if Resolution_eqb m cur then marked_line m else plain_line m.
Proof.
  unfold mode_line, mode_eqb, Resolution_eqb, marked_line, plain_line.
  destruct cur as [cw ch], m as [w h]. simpl.
  rewrite (Z.eqb_sym cw w), (Z.eqb_sym ch h).
  destruct ((w =? cw) && (h =? ch)); reflexivity.
Qed.

(** C1, amended.  When the requested pair is not a member of the set
    [get_modes] returns and differs from the current mode, [set] makes no
    native mode-change call: it prints that the pair is not an available
    mode, then the header and one line ["    <width> x <height>"] per mode
    of [get_modes_sorted], with [" *"] appended on the line of the mode
    that equals the current mode and on no other line, and returns. *)
Theorem set_unavailable_lists_modes (platform : string) (os : Win32)
    (iter : pyset -> list Resolution) (width height depth : pyint)
    (s : pyset) (cur : Resolution) :
  outcome (get_modes platform os) = Returns (Some s) ->
  tuple_in (width, height) s = false ->
  outcome (get platform os) = Returns (Some cur) ->
  mode_eqb (Some cur) (width, height) = false ->
  exists sorted_modes,
    outcome (get_modes_sorted platform os iter) = Returns sorted_modes /\
    outcome (set platform os iter width height depth) = Returns tt /\
    printed (trace (set platform os iter width height depth)) =
      ((fmt width ++ " x " ++ fmt height ++ " is not an available mode.")
       :: "Available Modes:"
       :: map (fun m =>
                 if (fst m =? fst cur) && (snd m =? snd cur)
                 then "    " ++ str_int (fst m) ++ " x " ++ str_int (snd m)
                        ++ " *"
                 else "    " ++ str_int (fst m) ++ " x " ++ str_int (snd m))
            sorted_modes) /\
    apply_calls (trace (set platform os iter width height depth)) = [].
Proof.
  intros Hmodes Hin Hget Hneq.
  pose proof (get_modes_Some_win32 _ _ _ Hmodes) as ->.
  rewrite get_modes_win32 in Hmodes. simpl in Hmodes.
  inversion Hmodes as [Hs]. clear Hmodes.
  rewrite get_win32 in Hget. simpl in Hget. inversion Hget as [Hcur]. clear Hget.
  exists (sorted_reverse area (iter s)).
  rewrite get_modes_sorted_win32, set_win32. cbv zeta.
  unfold Resolution in *.
  rewrite Hs, Hcur, Hneq, Hin. simpl negb. cbv iota.
  unfold trace, outcome. cbn [fst snd]. repeat split.
  - rewrite !printed_app, !printed_enum_trace. simpl app.
    rewrite printed_prints. simpl printed. simpl app.
    do 2 f_equal. apply map_ext. intros m. apply mode_line_marks.
  - rewrite !apply_calls_app, !apply_calls_enum_trace. simpl.
    apply apply_calls_prints.
Qed.

Lemma set_unavailable_lists_modes_witness :
  exists sorted_modes,
    outcome (get_modes_sorted "win32" desktop iter_insertion) =
      Returns sorted_modes /\
    outcome (set "win32" desktop iter_insertion (Some 3000) (Some 3000)
               (Some 32)) = Returns tt /\
    printed (trace (set "win32" desktop iter_insertion (Some 3000)
                      (Some 3000) (Some 32))) =
      ("3000 x 3000 is not an available mode."
       :: "Available Modes:"
       :: map (fun m =>
                 if (fst m =? 1280) && (snd m =? 720)
                 then "    " ++ str_int (fst m) ++ " x " ++ str_int (snd m)
                        ++ " *"
                 else "    " ++ str_int (fst m) ++ " x " ++ str_int (snd m))
            sorted_modes) /\
    apply_calls (trace (set "win32" desktop iter_insertion (Some 3000)
                          (Some 3000) (Some 32))) = [].
Proof.
  apply (set_unavailable_lists_modes "win32" desktop iter_insertion
           (Some 3000) (Some 3000) (Some 32)
           [(800, 600); (1280, 720); (1920, 1080)] (1280, 720));
    reflexivity.
Defined.

(** C3.  The code does not do what the claim says: called without width and
    height on Windows, [set] finds that [(None, None)] is not an available
    mode, prints the list of modes and returns; [ChangeDisplaySettings] is
    never called, so nothing is reset. *)
Theorem set_without_arguments_never_resets (os : Win32)
    (iter : pyset -> list Resolution) (depth : pyint) :
  apply_calls (trace (set "win32" os iter None None depth)) = [] /\
  outcome (set "win32" os iter None None depth) = Returns tt /\
  printed (trace (set "win32" os iter None None depth)) =
    "None x None is not an available mode."
    :: "Available Modes:"
    :: map (mode_line (Some (system_metrics os 0, system_metrics os 1)))
         (sorted_reverse area (iter (collect (display_settings os) []))).
Proof.
  rewrite set_win32. cbv zeta. simpl mode_eqb. simpl tuple_in. simpl negb.
  cbv iota. unfold trace, outcome, fst, snd. repeat split.
  - rewrite !apply_calls_app, !apply_calls_enum_trace. simpl.
    apply apply_calls_prints.
  - rewrite !printed_app, !printed_enum_trace. simpl.
    rewrite printed_prints. reflexivity.
Qed.

(** C4 as stated fails: ties do not follow the order of the native
    enumeration.  The driver of [pivot] reports 800 x 600 before 600 x 800,
    two modes of equal area; with an iteration order that yields every
    member of the set once, [get_modes_sorted] returns 600 x 800 first. *)
Lemma get_modes_sorted_ties_against_enumeration :
  map (fun mode => (PelsWidth mode, PelsHeight mode)) (display_settings pivot) =
    [(800, 600); (600, 800); (1920, 1080)] /\
  (forall s, NoDup s -> Permutation s (iter_reversed s)) /\
  outcome (get_modes_sorted "win32" pivot iter_reversed) =
    Returns [(1920, 1080); (600, 800); (800, 600)] /\
  filter (fun m => fst m * snd m =? 480000)
    [(1920, 1080); (600, 800); (800, 600)] <>
  filter (fun m => fst m * snd m =? 480000)
    [(800, 600); (600, 800); (1920, 1080)].
Proof.
  split; [reflexivity|]. split; [intros s _; apply Permutation_rev|].
  split; [reflexivity|]. simpl. discriminate.
Qed.

(** C4, amended.  [get_modes_sorted] returns the elements of the set
    [get_modes] returns, each once, ordered by descending width times
    height, and modes of equal area stay in the order in which the
    iteration over the set produced them, which need not be the order of
    the native enumeration. *)
Theorem get_modes_sorted_stable_descending (platform : string) (os : Win32)
    (iter : pyset -> list Resolution) (s : pyset) :
  (forall s', NoDup s' -> Permutation s' (iter s')) ->
  outcome (get_modes platform os) = Returns (Some s) ->
  exists l,
    outcome (get_modes_sorted platform os iter) = Returns l /\
    Permutation s l /\
    NoDup l /\
    StronglySorted (fun a b => fst b * snd b <= fst a * snd a) l /\
    forall a, filter (fun m => fst m * snd m =? a) l =
              filter (fun m => fst m * snd m =? a) (iter s).
Proof.
  intros Hiter Hmodes.
  pose proof (get_modes_Some_win32 _ _ _ Hmodes) as ->.
  rewrite get_modes_win32 in Hmodes. simpl in Hmodes.
  inversion Hmodes as [Hs]. clear Hmodes.
  assert (Hnd : NoDup s).
  { rewrite <- Hs. apply collect_NoDup. constructor. }
  exists (sorted_reverse area (iter s)).
  rewrite get_modes_sorted_win32, Hs.
  assert (Hperm : Permutation s (sorted_reverse area (iter s))).
  { apply perm_trans with (iter s).
    - apply Hiter, Hnd.
    - apply sorted_reverse_Permutation. }
  repeat split.
  - exact Hperm.
  - apply (Permutation_NoDup Hperm Hnd).
  - apply (sorted_reverse_StronglySorted area).
  - intros a. apply (sorted_reverse_stable area).
Qed.

Lemma get_modes_sorted_stable_descending_witness :
  exists l,
    outcome (get_modes_sorted "win32" pivot iter_reversed) = Returns l /\
    Permutation [(800, 600); (600, 800); (1920, 1080)] l /\
    NoDup l /\
    StronglySorted (fun a b => fst b * snd b <= fst a * snd a) l /\
    forall a, filter (fun m => fst m * snd m =? a) l =
              filter (fun m => fst m * snd m =? a)
                (iter_reversed [(800, 600); (600, 800); (1920, 1080)]).
Proof.
  apply (get_modes_sorted_stable_descending "win32" pivot iter_reversed).
  - intros s' _. apply Permutation_rev.
  - reflexivity.
Defined.

(** C5.  The code does not do what the claim says on a platform that none
    of the three branches names: there [get] and [get_modes] return [None]
    instead of failing, and [set] fails with [TypeError]. *)
Theorem unnamed_platform_falls_through (os : Win32)
    (iter : pyset -> list Resolution) (width height depth : pyint) :
  get "cygwin" os = ([], Returns None) /\
  get_modes "cygwin" os = ([], Returns None) /\
  set "cygwin" os iter width height depth = ([], Raises TypeError).
Proof.
  split; [reflexivity|]. split; [reflexivity|].
  apply set_unknown_platform; reflexivity.
Qed.

(** C6 as stated fails: on Linux the [NotImplementedError] of the stub
    leaves [main] uncaught. *)
Lemma main_lets_errors_escape :
  main "linux" desktop iter_insertion (mkNamespace None true false) =
    ([], Raises NotImplementedError) /\
  main "linux" desktop iter_insertion (mkNamespace None false true) =
    ([Print "Available Modes:"], Raises NotImplementedError) /\
  main "linux" desktop iter_insertion (mkNamespace (Some (800, 600)) false false) =
    ([], Raises NotImplementedError).
Proof. repeat split; reflexivity. Qed.

(** C6, amended.  The entry point has no handler: an error raised by the
    controller operation it calls ends [main] with that same error,
    uncaught. *)
Theorem main_propagates_errors (platform : string) (os : Win32)
    (iter : pyset -> list Resolution) (args : Namespace) (e : exn) :
  (exists w h, dimensions args = Some (w, h) /\
     outcome (set platform os iter (Some w) (Some h) (Some 32)) = Raises e) \/
  (dimensions args = None /\ current args = true /\
     outcome (get platform os) = Raises e) \/
  (dimensions args = None /\ current args = false /\ modes args = true /\
     outcome (get_modes_sorted platform os iter) = Raises e) ->
  outcome (main platform os iter args) = Raises e.
Proof.
  unfold main.
  intros [[w [h [Hd H]]] | [[Hd [Hc H]] | [Hd [Hc [Hm H]]]]]; rewrite Hd.
  - exact H.
  - rewrite Hc. rewrite (M_eta (get platform os)), H. reflexivity.
  - rewrite Hc, Hm. unfold print. rewrite bind_Returns.
    rewrite (M_eta (get_modes_sorted platform os iter)), H. reflexivity.
Qed.

Lemma main_propagates_errors_witness :
  outcome (main "darwin" desktop iter_insertion (mkNamespace None false true)) =
    Raises NotImplementedError.
Proof.
  apply (main_propagates_errors "darwin" desktop iter_insertion
           (mkNamespace None false true) NotImplementedError).
  right. right. repeat split; reflexivity.
Defined.

(** C7 as stated fails: the line printed for [--current] is not the bare
    resolution, it starts with a label. *)
Lemma main_current_prints_label :
  printed (trace (main "win32" desktop iter_insertion
                    (mkNamespace None true false))) =
    ["Current Mode: 1280 x 720"] /\
  printed (trace (main "win32" desktop iter_insertion
                    (mkNamespace None true false))) <>
    ["1280 x 720"].
Proof. split; [reflexivity | discriminate]. Qed.

(** C7, amended.  With [--current], when [get] returns a resolution, the
    entry point prints the one line ["Current Mode: <width> x <height>"]. *)
Theorem main_current_prints_resolution (platform : string) (os : Win32)
    (iter : pyset -> list Resolution) (args : Namespace) (w h : Z) :
  dimensions args = None ->
  current args = true ->
  outcome (get platform os) = Returns (Some (w, h)) ->
  printed (trace (main platform os iter args)) =
    ["Current Mode: " ++ str_int w ++ " x " ++ str_int h] /\
  outcome (main platform os iter args) = Returns tt.
Proof.
  intros Hd Hc Hget. pose proof (get_Some_win32 _ _ _ Hget) as ->.
  unfold main. rewrite Hd, Hc.
  rewrite get_win32 in *. simpl in Hget. inversion Hget as [[Hw Hh]].
  rewrite bind_Returns. split; reflexivity.
Qed.

Lemma main_current_prints_resolution_witness :
  printed (trace (main "win32" desktop iter_insertion
                    (mkNamespace None true false))) =
    ["Current Mode: " ++ str_int 1280 ++ " x " ++ str_int 720] /\
  outcome (main "win32" desktop iter_insertion (mkNamespace None true false)) =
    Returns tt.
Proof.
  apply (main_current_prints_resolution "win32" desktop iter_insertion
           (mkNamespace None true false) 1280 720); reflexivity.
Defined.

(** What [_win32_set] does for a non-zero width and height when the driver
    table has a first entry. *)
Lemma _win32_set_explicit (os : Win32) (w h : Z) (depth : pyint)
    (mode0 : DEVMODE) :
  w <> 0 -> h <> 0 ->
  nth_error (display_settings os) 0 = Some mode0 ->
  trace (_win32_set os (Some w) (Some h) depth) =
    [Native EnumDisplaySettings_noargs;
     Native (ChangeDisplaySettings
               (Some (mkDEVMODE w h (effective_depth depth)
                        (DisplayFrequency mode0)
                        (Z.lor DM_PELSWIDTH DM_PELSHEIGHT)))
               0)].
Proof.
  intros Hw Hh H0. apply Z.eqb_neq in Hw, Hh.
  unfold _win32_set, truthy, effective_depth. rewrite Hw, Hh. simpl orb.
  cbv iota.
  assert (E : forall d,
    trace (mode <- call_EnumDisplaySettings_noargs os ;;
           call_ChangeDisplaySettings os
             (Some (mkDEVMODE w h d (DisplayFrequency mode)
                      (Z.lor DM_PELSWIDTH DM_PELSHEIGHT))) 0 ;;
           ret tt) =
    [Native EnumDisplaySettings_noargs;
     Native (ChangeDisplaySettings
               (Some (mkDEVMODE w h d (DisplayFrequency mode0)
                        (Z.lor DM_PELSWIDTH DM_PELSHEIGHT))) 0)]).
  { intros d. unfold call_EnumDisplaySettings_noargs, call_ChangeDisplaySettings.
    rewrite H0. simpl.
    destruct (change_display_settings os _ 0); reflexivity. }
  destruct depth as [d|]; [destruct (d =? 0)|]; simpl negb; cbv iota; apply E.
Qed.

(** C8 as stated fails: for an advertised mode of width zero, [set] resets
    the display instead; the one native call carries no mode at all. *)
Lemma set_zero_width_resets :
  outcome (get_modes "win32" degenerate) =
    Returns (Some [(0, 600); (800, 600)]) /\
  outcome (get "win32" degenerate) = Returns (Some (800, 600)) /\
  apply_calls (trace (set "win32" degenerate iter_insertion (Some 0)
                        (Some 600) (Some 32))) = [(None, 0)] /\
  printed (trace (set "win32" degenerate iter_insertion (Some 0) (Some 600)
                    (Some 32))) = ["Setting resolution to defaults"].
Proof. repeat split; reflexivity. Qed.

(** C8, amended.  For a non-zero width and height, when the pair is a
    member of the set [get_modes] returns and differs from the current
    mode, [set] makes exactly one native mode-change call; its mode carries
    the width, the height and the depth, the depth being 32 when the
    argument is unset or zero. *)
Theorem set_available_mode_applies_once (platform : string) (os : Win32)
    (iter : pyset -> list Resolution) (w h : Z) (depth : pyint)
    (s : pyset) (cur : option Resolution) :
  outcome (get_modes platform os) = Returns (Some s) ->
  In (w, h) s ->
  outcome (get platform os) = Returns cur ->
  cur <> Some (w, h) ->
  w <> 0 -> h <> 0 ->
  exists mode,
    apply_calls (trace (set platform os iter (Some w) (Some h) depth)) =
      [(Some mode, 0)] /\
    PelsWidth mode = w /\
    PelsHeight mode = h /\
    BitsPerPel mode = effective_depth depth /\
    Fields mode = Z.lor DM_PELSWIDTH DM_PELSHEIGHT /\
    printed (trace (set platform os iter (Some w) (Some h) depth)) =
      ["Setting resolution to " ++ str_int w ++ " x " ++ str_int h].
Proof.
  intros Hmodes Hin Hget Hneq Hw Hh.
  pose proof (get_modes_Some_win32 _ _ _ Hmodes) as ->.
  rewrite get_modes_win32 in Hmodes. simpl in Hmodes.
  inversion Hmodes as [Hs]. clear Hmodes.
  rewrite get_win32 in Hget. simpl in Hget. inversion Hget as [Hcur]. clear Hget.
  assert (H0 : exists mode0, nth_error (display_settings os) 0 = Some mode0).
  { rewrite <- Hs in Hin. apply collect_In in Hin.
    destruct Hin as [[] | [m [Hm _]]].
    destruct (display_settings os) as [|m0 table]; [destruct Hm|].
    exists m0. reflexivity. }
  destruct H0 as [mode0 H0].
  assert (Hne : mode_eqb cur (Some w, Some h) = false).
  { rewrite <- Hcur. simpl. apply not_true_is_false. intros E.
    apply andb_true_iff in E. destruct E as [E1 E2].
    apply Z.eqb_eq in E1, E2. apply Hneq. rewrite <- Hcur, E1, E2. reflexivity. }
  assert (Hmem : tuple_in (Some w, Some h) s = true).
  { simpl. apply set_mem_In. exact Hin. }
  exists (mkDEVMODE w h (effective_depth depth) (DisplayFrequency mode0)
            (Z.lor DM_PELSWIDTH DM_PELSHEIGHT)).
  rewrite set_win32. cbv zeta. unfold pyint in *.
  rewrite Hs, Hcur, Hne, Hmem. simpl negb.
  cbv iota. unfold trace at 1 3. unfold fst.
  rewrite (_win32_set_explicit os w h depth mode0 Hw Hh H0).
  assert (Hmsg : setting_message (Some w) (Some h) =
                 "Setting resolution to " ++ str_int w ++ " x " ++ str_int h).
  { unfold setting_message, truthy.
    apply Z.eqb_neq in Hw, Hh. rewrite Hw, Hh. reflexivity. }
  rewrite Hmsg. repeat split.
  - rewrite !apply_calls_app, apply_calls_enum_trace. reflexivity.
  - rewrite !printed_app, printed_enum_trace. reflexivity.
Qed.

Lemma set_available_mode_applies_once_witness :
  exists mode,
    apply_calls (trace (set "win32" desktop iter_insertion (Some 1920)
                          (Some 1080) (Some 0))) = [(Some mode, 0)] /\
    PelsWidth mode = 1920 /\
    PelsHeight mode = 1080 /\
    BitsPerPel mode = effective_depth (Some 0) /\
    Fields mode = Z.lor DM_PELSWIDTH DM_PELSHEIGHT /\
    printed (trace (set "win32" desktop iter_insertion (Some 1920)
                      (Some 1080) (Some 0))) =
      ["Setting resolution to " ++ str_int 1920 ++ " x " ++ str_int 1080].
Proof.
  apply (set_available_mode_applies_once "win32" desktop iter_insertion
           1920 1080 (Some 0) [(800, 600); (1280, 720); (1920, 1080)]
           (Some (1280, 720))).
  - reflexivity.
  - simpl. right. right. left. reflexivity.
  - reflexivity.
  - discriminate.
  - lia.
  - lia.
Defined.

(** C9 as stated fails: a mode of width zero that the driver reports is a
    member of the returned set. *)
Lemma get_modes_keeps_zero_width :
  outcome (get_modes "win32" degenerate) =
    Returns (Some [(0, 600); (800, 600)]) /\
  In (0, 600) [(0, 600); (800, 600)] /\
  ~ (0 < fst (0, 600) /\ 0 < snd (0, 600)).
Proof.
  split; [reflexivity|]. split; [left; reflexivity|].
  simpl. lia.
Qed.

(** C9, amended.  The set [get_modes] returns has no duplicates and holds
    exactly the pairs [(PelsWidth, PelsHeight)] of the modes the native
    enumeration reports, none filtered out; its members have a positive
    width and height when the reported modes do. *)
Theorem get_modes_reports_native_modes (platform : string) (os : Win32)
    (s : pyset) :
  outcome (get_modes platform os) = Returns (Some s) ->
  NoDup s /\
  (forall r, In r s <->
     exists mode, In mode (display_settings os) /\
                  r = (PelsWidth mode, PelsHeight mode)) /\
  ((forall mode, In mode (display_settings os) ->
      0 < PelsWidth mode /\ 0 < PelsHeight mode) ->
   forall r, In r s -> 0 < fst r /\ 0 < snd r).
Proof.
  intros Hmodes.
  pose proof (get_modes_Some_win32 _ _ _ Hmodes) as ->.
  rewrite get_modes_win32 in Hmodes. simpl in Hmodes.
  inversion Hmodes as [Hs]. clear Hmodes.
  assert (Hchar : forall r, In r (collect (display_settings os) []) <->
            exists mode, In mode (display_settings os) /\
                         r = (PelsWidth mode, PelsHeight mode)).
  { intros r. rewrite collect_In. split.
    - intros [[] | H]. exact H.
    - intros H. right. exact H. }
  split; [apply collect_NoDup; constructor|].
  split; [exact Hchar|].
  intros Hpos r Hr. apply Hchar in Hr. destruct Hr as [mode [Hm ->]].
  simpl. apply Hpos, Hm.
Qed.

Lemma get_modes_reports_native_modes_witness :
  NoDup [(0, 600); (800, 600)] /\
  (forall r, In r [(0, 600); (800, 600)] <->
     exists mode, In mode (display_settings degenerate) /\
                  r = (PelsWidth mode, PelsHeight mode)) /\
  ((forall mode, In mode (display_settings degenerate) ->
      0 < PelsWidth mode /\ 0 < PelsHeight mode) ->
   forall r, In r [(0, 600); (800, 600)] -> 0 < fst r /\ 0 < snd r).
Proof.
  apply (get_modes_reports_native_modes "win32" degenerate).
  reflexivity.
Defined.

(** C10.  Whenever [set] makes the native mode-change call, the message
    that announces the change ("Setting resolution to ...") has been
    printed before it; the outcome of the call plays no part, so the
    message is there also when the call fails. *)
Theorem set_announces_before_apply (platform : string) (os : Win32)
    (iter : pyset -> list Resolution) (width height depth : pyint)
    (pre post : list event) (mode : option DEVMODE) (flags : Z) :
  trace (set platform os iter width height depth) =
    (pre ++ Native (ChangeDisplaySettings mode flags) :: post)%list ->
  In (Print (setting_message width height)) pre.
Proof.
  intros H.
  assert (Hcall : In (mode, flags)
            (apply_calls (trace (set platform os iter width height depth)))).
  { apply apply_calls_In. rewrite H. apply in_elt. }
  destruct (string_dec platform "win32") as [-> | Hp].
  - rewrite set_win32 in H, Hcall. cbv zeta in H, Hcall.
    destruct (mode_eqb _ (width, height)); [destruct Hcall|].
    destruct (negb (tuple_in (width, height) _)).
    + exfalso. unfold trace, fst in Hcall.
      rewrite !apply_calls_app, !apply_calls_enum_trace in Hcall. simpl in Hcall.
      rewrite apply_calls_prints in Hcall. destruct Hcall.
    + clear Hcall. unfold trace at 1 in H. unfold fst in H.
      set (en := enum_trace 0 (length (display_settings os))) in H.
      set (msg := Print (setting_message width height)) in *.
      assert (E : (get_trace ++ en ++ msg :: trace (_win32_set os width height depth))%list
                  = ((get_trace ++ en ++ [msg]) ++
                     trace (_win32_set os width height depth))%list).
      { rewrite <- !app_assoc. reflexivity. }
      rewrite E in H. apply split_after in H.
      * destruct H as [l ->]. rewrite !in_app_iff. left. right. right.
        left. reflexivity.
      * intros Hin. apply apply_calls_In in Hin.
        rewrite !apply_calls_app in Hin. unfold en in Hin.
        rewrite apply_calls_enum_trace in Hin. destruct Hin.
  - rewrite set_trace_not_win32 in Hcall by exact Hp. destruct Hcall.
Qed.

Lemma set_announces_before_apply_witness :
  outcome (set "win32" stubborn iter_insertion (Some 1920) (Some 1080)
             (Some 32)) = Raises pywintypes_error /\
  In (Print (setting_message (Some 1920) (Some 1080)))
    (get_trace ++ enum_trace 0 4 ++
     [Print "Setting resolution to 1920 x 1080";
      Native EnumDisplaySettings_noargs])%list.
Proof.
  split; [reflexivity|].
  apply (set_announces_before_apply "win32" stubborn iter_insertion
           (Some 1920) (Some 1080) (Some 32) _ []
           (Some (mkDEVMODE 1920 1080 32 60 (Z.lor DM_PELSWIDTH DM_PELSHEIGHT)))
           0).
  reflexivity.
Defined.

(** * Further properties of the code *)

(** ** Helper lemmas *)

Lemma set_add_length (x : Resolution) (s : pyset) :
  (length (set_add x s) <= S (length s))%nat.
Proof.
  unfold set_add. destruct (set_mem x s).
  - lia.
  - rewrite length_app. simpl. lia.
Qed.

Lemma collect_length (table : list DEVMODE) (s : pyset) :
  (length (collect table s) <= length s + length table)%nat.
Proof.
  unfold collect. revert s. induction table as [|m table IH]; intros s; simpl.
  - lia.
  - specialize (IH (set_add (PelsWidth m, PelsHeight m) s)).
    pose proof (set_add_length (PelsWidth m, PelsHeight m) s). lia.
Qed.

Lemma tuple_in_true (width height : pyint) (s : pyset) :
  tuple_in (width, height) s = true ->
  exists w h, width = Some w /\ height = Some h /\ In (w, h) s.
Proof.
  destruct width as [w|], height as [h|]; simpl; try discriminate.
  intros H. exists w, h. repeat split. apply set_mem_In, H.
Qed.

Lemma collect_first (table : list DEVMODE) (r : Resolution) :
  In r (collect table []) -> exists mode0, nth_error table 0 = Some mode0.
Proof.
  intros H. apply collect_In in H. destruct H as [[] | [m [Hm _]]].
  destruct table as [|m0 table]; [destruct Hm|]. exists m0. reflexivity.
Qed.

Lemma mode_eqb_false (a b w h : Z) :
  mode_eqb (Some (a, b)) (Some w, Some h) = false -> (a, b) <> (w, h).
Proof.
  simpl. intros H E. inversion E; subst. rewrite !Z.eqb_refl in H. discriminate.
Qed.

Lemma _win32_set_falsy (os : Win32) (width height depth : pyint) :
  truthy width && truthy height = false ->
  _win32_set os width height depth =
    ([Native (ChangeDisplaySettings None 0)],
     apply_outcome (change_display_settings os None 0)).
Proof.
  intros H. unfold _win32_set.
  assert (E : negb (truthy width) || negb (truthy height) = true).
  { destruct (truthy width), (truthy height); try reflexivity; discriminate. }
  rewrite E. unfold call_ChangeDisplaySettings.
  destruct (change_display_settings os None 0); reflexivity.
Qed.

Lemma _win32_set_cases (os : Win32) (w h : Z) (depth : pyint)
    (mode0 : DEVMODE) :
  nth_error (display_settings os) 0 = Some mode0 ->
  _win32_set os (Some w) (Some h) depth =
    if (w =? 0) || (h =? 0) then
      ([Native (ChangeDisplaySettings None 0)],
       apply_outcome (change_display_settings os None 0))
    else
      ([Native EnumDisplaySettings_noargs;
        Native (ChangeDisplaySettings
                  (Some (mkDEVMODE w h (effective_depth depth)
                           (DisplayFrequency mode0)
                           (Z.lor DM_PELSWIDTH DM_PELSHEIGHT))) 0)],
       apply_outcome
         (change_display_settings os
            (Some (mkDEVMODE w h (effective_depth depth)
                     (DisplayFrequency mode0)
                     (Z.lor DM_PELSWIDTH DM_PELSHEIGHT))) 0)).
Proof.
  intros H0. destruct ((w =? 0) || (h =? 0)) eqn:Ez.
  - apply _win32_set_falsy. simpl.
    destruct (w =? 0), (h =? 0); try reflexivity; discriminate.
  - apply orb_false_iff in Ez. destruct Ez as [Ew Eh].
    unfold _win32_set, truthy, effective_depth. rewrite Ew, Eh. simpl orb.
    cbv iota.
    unfold call_EnumDisplaySettings_noargs, call_ChangeDisplaySettings.
    rewrite H0.
    destruct depth as [d|]; [destruct (d =? 0)|]; simpl;
      match goal with
      | |- context [change_display_settings os ?m 0] =>
          destruct (change_display_settings os m 0); reflexivity
      end.
Qed.

Lemma main_list_win32 (os : Win32) (iter : pyset -> list Resolution)
    (args : Namespace) :
  dimensions args = None -> current args = false -> modes args = true ->
  main "win32" os iter args =
    ((Print "Available Modes:"
      :: enum_trace 0 (length (display_settings os)) ++ get_trace ++
         map (fun m => Print (mode_line
                (Some (system_metrics os 0, system_metrics os 1)) m))
           (sorted_reverse area (iter (collect (display_settings os) []))))%list,
     Returns tt).
Proof.
  intros Hd Hc Hm. unfold main. rewrite Hd, Hc, Hm.
  unfold print. rewrite bind_Returns, get_modes_sorted_win32, bind_Returns.
  rewrite get_win32, bind_Returns, print_modes_eq. reflexivity.
Qed.

Lemma main_stub_platform (platform : string) (os : Win32)
    (iter : pyset -> list Resolution) (args : Namespace) :
  get platform os = ([], Raises NotImplementedError) ->
  get_modes platform os = ([], Raises NotImplementedError) ->
  main platform os iter args = main_failing NotImplementedError args.
Proof.
  intros Hg Hm. unfold main, main_failing, set, get_modes_sorted.
  rewrite Hg, Hm.
  destruct (dimensions args) as [[w h]|]; [reflexivity|].
  destruct (current args); [reflexivity|].
  destruct (modes args); reflexivity.
Qed.

Lemma main_unknown_platform (platform : string) (os : Win32)
    (iter : pyset -> list Resolution) (args : Namespace) :
  get platform os = ([], Returns None) ->
  get_modes platform os = ([], Returns None) ->
  main platform os iter args = main_failing TypeError args.
Proof.
  intros Hg Hm. unfold main, main_failing, set, get_modes_sorted.
  rewrite Hg, Hm.
  destruct (dimensions args) as [[w h]|]; [reflexivity|].
  destruct (current args); [reflexivity|].
  destruct (modes args); reflexivity.
Qed.

(** Two lists in descending order of a key that is injective on their
    elements are equal when they hold the same elements. *)
Lemma sorted_unique {A : Type} (key : A -> Z) (l1 l2 : list A) :
  (forall a b, In a l1 -> In b l1 -> key a = key b -> a = b) ->
  StronglySorted (fun a b => key b <= key a) l1 ->
  StronglySorted (fun a b => key b <= key a) l2 ->
  Permutation l1 l2 ->
  l1 = l2.
Proof.
  revert l2. induction l1 as [|a l1 IH]; intros l2 Hinj S1 S2 P.
  - apply Permutation_nil in P. symmetry. exact P.
  - destruct l2 as [|b l2].
    + apply Permutation_sym, Permutation_nil in P. discriminate.
    + inversion S1 as [|? ? S1' F1]; subst.
      inversion S2 as [|? ? S2' F2]; subst.
      assert (Hab : a = b).
      { assert (Hb : In b (a :: l1)).
        { apply (Permutation_in b (Permutation_sym P)). left. reflexivity. }
        assert (Ha : In a (b :: l2)).
        { apply (Permutation_in a P). left. reflexivity. }
        destruct Hb as [Hb | Hb]; [exact Hb|].
        destruct Ha as [Ha | Ha]; [symmetry; exact Ha|].
        rewrite Forall_forall in F1, F2.
        apply Hinj; [left; reflexivity | right; exact Hb |].
        pose proof (F1 b Hb). pose proof (F2 a Ha). lia. }
      subst b. f_equal. apply IH.
      * intros x y Hx Hy. apply Hinj; right; assumption.
      * exact S1'.
      * exact S2'.
      * apply (Permutation_cons_inv P).
Qed.

Lemma mode_line_other (cur : Resolution) (l : list Resolution) :
  ~ In cur l -> map (mode_line (Some cur)) l = map plain_line l.
Proof.
  induction l as [|m l IH]; intros H; simpl; [reflexivity|].
  rewrite IH by (intros Hin; apply H; right; exact Hin).
  f_equal. unfold mode_line, plain_line. destruct cur as [a b], m as [x y].
  simpl. destruct ((a =? x) && (b =? y)) eqn:E; [|reflexivity].
  exfalso. apply H. left. apply andb_true_iff in E. destruct E as [E1 E2].
  apply Z.eqb_eq in E1, E2. subst. reflexivity.
Qed.

Lemma mode_line_current (cur : Resolution) :
  mode_line (Some cur) cur = marked_line cur.
Proof.
  unfold mode_line, marked_line. destruct cur as [a b]. simpl.
  rewrite !Z.eqb_refl. reflexivity.
Qed.

Lemma printed_Print (line : string) (t : list event) :
  printed (Print line :: t) = line :: printed t.
Proof. reflexivity. Qed.

Lemma enumeration_calls_app (t1 t2 : list event) :
  enumeration_calls (t1 ++ t2) =
  (enumeration_calls t1 ++ enumeration_calls t2)%list.
Proof.
  induction t1 as [|e t1 IH]; simpl; [reflexivity|].
  destruct e as [line| |c]; try exact IH.
  destruct c; try exact IH. simpl. rewrite IH. reflexivity.
Qed.

Lemma enumeration_calls_enum_trace (i n : nat) :
  enumeration_calls (enum_trace i n) = seq i (S n).
Proof.
  unfold enum_trace. induction (seq i (S n)) as [|k l IH]; simpl.
  - reflexivity.
  - rewrite IH. reflexivity.
Qed.

Lemma enumeration_calls_prints {A} (f : A -> string) (l : list A) :
  enumeration_calls (map (fun x => Print (f x)) l) = [].
Proof. induction l as [|x l IH]; simpl; auto. Qed.

(** ** Enumeration *)

(** X1.  On Windows [get_modes] never fails, whatever the driver reports:
    it calls [EnumDisplaySettings] once per table entry and once more for
    the error that ends the loop, and returns a set without duplicates that
    holds the pair of every entry and has at most as many members as the
    table has entries. *)
Theorem get_modes_windows_deduplicates (os : Win32) :
  exists s,
    get_modes "win32" os =
      (enum_trace 0 (length (display_settings os)), Returns (Some s)) /\
    NoDup s /\
    (length s <= length (display_settings os))%nat /\
    (forall mode, In mode (display_settings os) ->
                  In (PelsWidth mode, PelsHeight mode) s).
Proof.
  exists (collect (display_settings os) []). split; [apply get_modes_win32|].
  split; [apply collect_NoDup; constructor|].
  split; [apply (collect_length (display_settings os) [])|].
  intros mode Hm. apply collect_In. right. exists mode. auto.
Qed.

(** ** What [set] applies *)

(** X2.  On any platform [set] makes at most one native mode-change call,
    and only on Windows for a pair that is a member of the enumerated set
    and differs from the current resolution.  The call is the reset call
    when a dimension is zero; otherwise its mode carries the requested
    width and height, and the depth with 32 for unset or zero. *)
Theorem set_applies_only_advertised (platform : string) (os : Win32)
    (iter : pyset -> list Resolution) (width height depth : pyint)
    (call : option DEVMODE * Z) (calls : list (option DEVMODE * Z)) :
  apply_calls (trace (set platform os iter width height depth)) =
    call :: calls ->
  calls = [] /\
  platform = "win32" /\
  exists w h,
    width = Some w /\ height = Some h /\
    In (w, h) (collect (display_settings os) []) /\
    (system_metrics os 0, system_metrics os 1) <> (w, h) /\
    ((call = (None, 0) /\ (w = 0 \/ h = 0)) \/
     (exists mode,
        call = (Some mode, 0) /\ w <> 0 /\ h <> 0 /\
        PelsWidth mode = w /\ PelsHeight mode = h /\
        BitsPerPel mode = effective_depth depth)).
Proof.
  intros H. destruct (string_dec platform "win32") as [-> | Hp].
  2: { rewrite set_trace_not_win32 in H by exact Hp. discriminate. }
  rewrite set_win32 in H. cbv zeta in H.
  destruct (mode_eqb _ (width, height)) eqn:Hc; [discriminate|].
  destruct (tuple_in (width, height) _) eqn:Ht; simpl negb in H; cbv iota in H.
  2: { unfold trace, fst in H.
       rewrite !apply_calls_app, !apply_calls_enum_trace in H. simpl in H.
       rewrite apply_calls_prints in H. discriminate. }
  destruct (tuple_in_true _ _ _ Ht) as [w [h [-> [-> Hin]]]].
  destruct (collect_first _ _ Hin) as [mode0 H0].
  rewrite (_win32_set_cases os w h depth mode0 H0) in H.
  apply mode_eqb_false in Hc.
  destruct ((w =? 0) || (h =? 0)) eqn:Ez;
    unfold trace, fst in H;
    rewrite !apply_calls_app, apply_calls_enum_trace in H; simpl in H;
    inversion H; subst; split; try reflexivity; split; try reflexivity;
    exists w, h; repeat split; try assumption.
  - left. split; [reflexivity|].
    apply orb_true_iff in Ez. rewrite !Z.eqb_eq in Ez. exact Ez.
  - right. apply orb_false_iff in Ez. rewrite !Z.eqb_neq in Ez.
    destruct Ez as [Ew Eh]. eexists. split; [reflexivity|].
    repeat split; assumption.
Qed.

Lemma set_applies_only_advertised_witness :
  @nil (option DEVMODE * Z) = [] /\
  "win32" = "win32" /\
  exists w h,
    Some 0 = Some w /\ Some 600 = Some h /\
    In (w, h) (collect (display_settings degenerate) []) /\
    (system_metrics degenerate 0, system_metrics degenerate 1) <> (w, h) /\
    (((@None DEVMODE, 0) = (None, 0) /\ (w = 0 \/ h = 0)) \/
     (exists mode,
        (@None DEVMODE, 0) = (Some mode, 0) /\ w <> 0 /\ h <> 0 /\
        PelsWidth mode = w /\ PelsHeight mode = h /\
        BitsPerPel mode = effective_depth None)).
Proof.
  apply (set_applies_only_advertised "win32" degenerate iter_insertion
           (Some 0) (Some 600) None (None, 0) []).
  reflexivity.
Defined.

(** X3.  On Windows [set] ends normally for every request as long as the
    native mode-change call does not raise; a failure code it returns is
    not looked at. *)
Theorem set_returns_unless_apply_raises (os : Win32)
    (iter : pyset -> list Resolution) (width height depth : pyint) :
  (forall mode flags, change_display_settings os mode flags <> None) ->
  outcome (set "win32" os iter width height depth) = Returns tt.
Proof.
  intros Hok. rewrite set_win32. cbv zeta.
  destruct (mode_eqb _ (width, height)); [reflexivity|].
  destruct (tuple_in (width, height) _) eqn:Ht; simpl negb; cbv iota;
    [|reflexivity].
  destruct (tuple_in_true _ _ _ Ht) as [w [h [-> [-> Hin]]]].
  destruct (collect_first _ _ Hin) as [mode0 H0].
  rewrite (_win32_set_cases os w h depth mode0 H0).
  unfold outcome at 1. unfold snd.
  destruct ((w =? 0) || (h =? 0)); unfold outcome, snd;
    match goal with
    | |- apply_outcome (change_display_settings os ?m ?f) = _ =>
        pose proof (Hok m f); destruct (change_display_settings os m f);
          [reflexivity | contradiction]
    end.
Qed.

Lemma set_returns_unless_apply_raises_witness :
  outcome (set "win32" refusing iter_insertion (Some 1920) (Some 1080)
             (Some 32)) = Returns tt.
Proof.
  apply (set_returns_unless_apply_raises refusing iter_insertion).
  intros mode flags. simpl. discriminate.
Defined.

(** X4.  The code returned by [ChangeDisplaySettings] has no effect on what
    [set] prints, calls or returns: two hosts that differ only in that code
    give the same run. *)
Theorem set_discards_return_code (table : list DEVMODE) (metrics : Z -> Z)
    (code code' : option DEVMODE -> Z -> Z)
    (iter : pyset -> list Resolution) (width height depth : pyint) :
  set "win32" (mkWin32 table metrics (fun m f => Some (code m f))) iter
    width height depth =
  set "win32" (mkWin32 table metrics (fun m f => Some (code' m f))) iter
    width height depth.
Proof.
  rewrite !set_win32. cbv zeta. simpl display_settings. simpl system_metrics.
  destruct (mode_eqb _ (width, height)); [reflexivity|].
  destruct (tuple_in (width, height) _) eqn:Ht; simpl negb; cbv iota;
    [|reflexivity].
  destruct (tuple_in_true _ _ _ Ht) as [w [h [-> [-> Hin]]]].
  destruct (collect_first _ _ Hin) as [mode0 H0].
  rewrite (_win32_set_cases (mkWin32 table metrics _) w h depth mode0 H0).
  rewrite (_win32_set_cases (mkWin32 table metrics _) w h depth mode0 H0).
  destruct ((w =? 0) || (h =? 0)); reflexivity.
Qed.

(** ** The command line *)

(** X5.  Without [--set] the entry point never changes the display: on any
    platform and host, the runs of [--current], of [--list] and of no flag
    contain no native mode-change call. *)
Theorem main_queries_never_apply (platform : string) (os : Win32)
    (iter : pyset -> list Resolution) (args : Namespace) :
  dimensions args = None ->
  apply_calls (trace (main platform os iter args)) = [].
Proof.
  intros Hd.
  destruct (platform_cases platform os) as [-> | [[Hg Hm] | [Hg Hm]]].
  - destruct (current args) eqn:Hc; [|destruct (modes args) eqn:Hl].
    + unfold main. rewrite Hd, Hc, get_win32, bind_Returns. reflexivity.
    + rewrite (main_list_win32 os iter args Hd Hc Hl). unfold trace, fst.
      change (apply_calls
                (enum_trace 0 (length (display_settings os)) ++ get_trace ++
                 map (fun m => Print (mode_line
                        (Some (system_metrics os 0, system_metrics os 1)) m))
                   (sorted_reverse area
                      (iter (collect (display_settings os) []))))%list = []).
      rewrite !apply_calls_app, apply_calls_enum_trace, apply_calls_prints.
      reflexivity.
    + unfold main. rewrite Hd, Hc, Hl. reflexivity.
  - rewrite (main_stub_platform _ _ _ _ Hg Hm). unfold main_failing.
    rewrite Hd. destruct (current args), (modes args); reflexivity.
  - rewrite (main_unknown_platform _ _ _ _ Hg Hm). unfold main_failing.
    rewrite Hd. destruct (current args), (modes args); reflexivity.
Qed.

Lemma main_queries_never_apply_witness :
  apply_calls (trace (main "win32" desktop iter_insertion args_list)) = [].
Proof.
  apply (main_queries_never_apply "win32" desktop iter_insertion args_list).
  reflexivity.
Defined.

(** X6.  On Windows [--list] prints the header and then one line per mode
    of [get_modes_sorted], in its order; the modes are enumerated before
    the current resolution is queried, and the run ends normally. *)
Theorem main_list_prints_sorted_modes (os : Win32)
    (iter : pyset -> list Resolution) (args : Namespace) :
  dimensions args = None -> current args = false -> modes args = true ->
  exists sorted_modes cur,
    outcome (get_modes_sorted "win32" os iter) = Returns sorted_modes /\
    outcome (get "win32" os) = Returns cur /\
    main "win32" os iter args =
      ((Print "Available Modes:"
        :: trace (get_modes_sorted "win32" os iter) ++
           trace (get "win32" os) ++
           map (fun m => Print (mode_line cur m)) sorted_modes)%list,
       Returns tt) /\
    printed (trace (main "win32" os iter args)) =
      "Available Modes:" :: map (mode_line cur) sorted_modes.
Proof.
  intros Hd Hc Hl.
  exists (sorted_reverse area (iter (collect (display_settings os) []))).
  exists (Some (system_metrics os 0, system_metrics os 1)).
  rewrite (main_list_win32 os iter args Hd Hc Hl).
  rewrite get_modes_sorted_win32, get_win32. unfold trace, outcome, fst, snd.
  repeat split.
  rewrite printed_Print.
  rewrite !printed_app, printed_enum_trace, printed_prints. reflexivity.
Qed.

Lemma main_list_prints_sorted_modes_witness :
  exists sorted_modes cur,
    outcome (get_modes_sorted "win32" desktop iter_insertion) =
      Returns sorted_modes /\
    outcome (get "win32" desktop) = Returns cur /\
    main "win32" desktop iter_insertion args_list =
      ((Print "Available Modes:"
        :: trace (get_modes_sorted "win32" desktop iter_insertion) ++
           trace (get "win32" desktop) ++
           map (fun m => Print (mode_line cur m)) sorted_modes)%list,
       Returns tt) /\
    printed (trace (main "win32" desktop iter_insertion args_list)) =
      "Available Modes:" :: map (mode_line cur) sorted_modes.
Proof.
  apply (main_list_prints_sorted_modes desktop iter_insertion args_list);
    reflexivity.
Defined.

(** X7.  The listing that [set] prints when it rejects a request is, line
    for line, what [--list] prints on the same host: the rejection message
    followed by the output of [--list]. *)
Theorem set_rejection_prints_the_list (os : Win32)
    (iter : pyset -> list Resolution) (width height depth : pyint) :
  mode_eqb (Some (system_metrics os 0, system_metrics os 1)) (width, height)
    = false ->
  tuple_in (width, height) (collect (display_settings os) []) = false ->
  printed (trace (set "win32" os iter width height depth)) =
    (fmt width ++ " x " ++ fmt height ++ " is not an available mode.")
    :: printed (trace (main "win32" os iter args_list)).
Proof.
  intros Hc Ht.
  rewrite (main_list_win32 os iter args_list eq_refl eq_refl eq_refl).
  rewrite set_win32. cbv zeta. rewrite Hc, Ht. simpl negb. cbv iota.
  unfold trace, fst.
  rewrite printed_Print.
  rewrite !printed_app, !printed_enum_trace, !printed_prints. reflexivity.
Qed.

Lemma set_rejection_prints_the_list_witness :
  printed (trace (set "win32" desktop iter_reversed (Some 3000) (Some 3000)
                    (Some 32))) =
    (fmt (Some 3000) ++ " x " ++ fmt (Some 3000) ++ " is not an available mode.")
    :: printed (trace (main "win32" desktop iter_reversed args_list)).
Proof.
  apply (set_rejection_prints_the_list desktop iter_reversed (Some 3000)
           (Some 3000) (Some 32)); reflexivity.
Defined.

(** X8.  In the listing of the modes exactly one line carries the mark
    [" *"], the line of the current resolution, when that resolution is
    among the enumerated modes; when it is not, no line is marked. *)
Theorem listing_marks_current_once (os : Win32)
    (iter : pyset -> list Resolution) (sorted_modes : list Resolution) :
  let cur := (system_metrics os 0, system_metrics os 1) in
  (forall s, NoDup s -> Permutation s (iter s)) ->
  outcome (get_modes_sorted "win32" os iter) = Returns sorted_modes ->
  (In cur (collect (display_settings os) []) ->
   exists before after,
     sorted_modes = (before ++ cur :: after)%list /\
     map (mode_line (Some cur)) sorted_modes =
       (map plain_line before ++ marked_line cur :: map plain_line after)%list)
  /\
  (~ In cur (collect (display_settings os) []) ->
   map (mode_line (Some cur)) sorted_modes = map plain_line sorted_modes).
Proof.
  intros cur Hiter Hsorted.
  rewrite get_modes_sorted_win32 in Hsorted. simpl in Hsorted.
  injection Hsorted as Hl. subst sorted_modes.
  set (s := collect (display_settings os) []) in *.
  set (sorted_modes := sorted_reverse area (iter s)) in *.
  assert (Hnd : NoDup s) by (apply collect_NoDup; constructor).
  assert (Hperm : Permutation s sorted_modes).
  { apply perm_trans with (iter s).
    - apply Hiter, Hnd.
    - apply sorted_reverse_Permutation. }
  assert (Hnd' : NoDup sorted_modes) by apply (Permutation_NoDup Hperm Hnd).
  split.
  - intros Hin. apply (Permutation_in _ Hperm) in Hin.
    destruct (in_split _ _ Hin) as [before [after E]].
    exists before, after. split; [exact E|].
    rewrite E in Hnd'. rewrite E, map_app. simpl.
    pose proof (NoDup_remove_2 _ _ _ Hnd') as Hout.
    rewrite in_app_iff in Hout.
    rewrite !mode_line_other, mode_line_current; [reflexivity | tauto | tauto].
  - intros Hout. apply mode_line_other. intros Hin. apply Hout.
    apply (Permutation_in _ (Permutation_sym Hperm)), Hin.
Qed.

Lemma listing_marks_current_once_witness :
  (In (1280, 720) (collect (display_settings desktop) []) ->
   exists before after,
     [(1920, 1080); (1280, 720); (800, 600)] =
       (before ++ (1280, 720) :: after)%list /\
     map (mode_line (Some (1280, 720)))
       [(1920, 1080); (1280, 720); (800, 600)] =
       (map plain_line before ++ marked_line (1280, 720)
          :: map plain_line after)%list)
  /\
  (~ In (1280, 720) (collect (display_settings desktop) []) ->
   map (mode_line (Some (1280, 720))) [(1920, 1080); (1280, 720); (800, 600)] =
     map plain_line [(1920, 1080); (1280, 720); (800, 600)]).
Proof.
  apply (listing_marks_current_once desktop iter_reversed
           [(1920, 1080); (1280, 720); (800, 600)]).
  - intros s _. apply Permutation_rev.
  - reflexivity.
Defined.

(** X9.  When no two enumerated modes have the same area, the order of the
    listing does not depend on the order in which the set is iterated: any
    two iteration orders give the same sorted list. *)
Theorem listing_order_independent_of_iteration (os : Win32)
    (iter iter' : pyset -> list Resolution) :
  (forall s, NoDup s -> Permutation s (iter s)) ->
  (forall s, NoDup s -> Permutation s (iter' s)) ->
  (forall a b, In a (collect (display_settings os) []) ->
               In b (collect (display_settings os) []) ->
               area a = area b -> a = b) ->
  get_modes_sorted "win32" os iter = get_modes_sorted "win32" os iter'.
Proof.
  intros Hi Hi' Hinj. rewrite !get_modes_sorted_win32.
  set (s := collect (display_settings os) []) in *.
  assert (Hnd : NoDup s) by (apply collect_NoDup; constructor).
  assert (P : Permutation s (sorted_reverse area (iter s))).
  { apply perm_trans with (iter s);
      [apply Hi, Hnd | apply sorted_reverse_Permutation]. }
  assert (P' : Permutation s (sorted_reverse area (iter' s))).
  { apply perm_trans with (iter' s);
      [apply Hi', Hnd | apply sorted_reverse_Permutation]. }
  f_equal. f_equal. apply (sorted_unique area).
  - intros a b Ha Hb. apply Hinj;
      apply (Permutation_in _ (Permutation_sym P)); assumption.
  - apply sorted_reverse_StronglySorted.
  - apply sorted_reverse_StronglySorted.
  - apply perm_trans with s; [apply Permutation_sym, P | exact P'].
Qed.

Lemma listing_order_independent_of_iteration_witness :
  get_modes_sorted "win32" desktop iter_insertion =
  get_modes_sorted "win32" desktop iter_reversed.
Proof.
  apply (listing_order_independent_of_iteration desktop iter_insertion
           iter_reversed).
  - intros s _. apply Permutation_refl.
  - intros s _. apply Permutation_rev.
  - simpl. intros a b Ha Hb.
    destruct Ha as [<- | [<- | [<- | []]]];
      destruct Hb as [<- | [<- | [<- | []]]];
      vm_compute; intros E; try reflexivity; discriminate E.
Defined.

(** X10.  On a platform whose name starts with [linux] or [darwin] every
    command that needs the display ends in [NotImplementedError] without a
    native call: [--set] and [--current] print nothing, [--list] has
    already printed its header; only the run without flags succeeds. *)
Theorem main_on_stub_platform (platform : string) (os : Win32)
    (iter : pyset -> list Resolution) (args : Namespace) :
  platform <> "win32" ->
  prefix "linux" platform = true \/ prefix "darwin" platform = true ->
  main platform os iter args =
    match dimensions args with
    | Some _ => ([], Raises NotImplementedError)
    | None =>
        if current args then ([], Raises NotImplementedError)
        else if modes args then
          ([Print "Available Modes:"], Raises NotImplementedError)
        else ([PrintHelp], Returns tt)
    end.
Proof.
  intros Hp Hpre.
  destruct (stubs_raise platform os iter None None None Hp Hpre)
    as [Hg [Hm _]].
  apply (main_stub_platform _ _ _ _ Hg Hm).
Qed.

Lemma main_on_stub_platform_witness :
  main "linux2" desktop iter_insertion args_list =
    ([Print "Available Modes:"], Raises NotImplementedError).
Proof.
  apply (main_on_stub_platform "linux2" desktop iter_insertion args_list).
  - discriminate.
  - left. reflexivity.
Defined.

(** X11.  On a platform that none of the branches names, the queries
    return [None], and every command that needs the display ends in
    [TypeError] when it uses that [None]: [--set] at the membership test,
    [--current] at the subscript, [--list] at [sorted], after its header. *)
Theorem main_on_unnamed_platform (platform : string) (os : Win32)
    (iter : pyset -> list Resolution) (args : Namespace) :
  platform <> "win32" ->
  prefix "linux" platform = false ->
  prefix "darwin" platform = false ->
  main platform os iter args =
    match dimensions args with
    | Some _ => ([], Raises TypeError)
    | None =>
        if current args then ([], Raises TypeError)
        else if modes args then ([Print "Available Modes:"], Raises TypeError)
        else ([PrintHelp], Returns tt)
    end.
Proof.
  intros Hp Hl Hd.
  assert (E : String.eqb platform "win32" = false).
  { apply not_true_is_false. intros E. apply String.eqb_eq in E.
    contradiction. }
  apply main_unknown_platform.
  - unfold get. rewrite E, Hl, Hd. reflexivity.
  - unfold get_modes. rewrite E, Hl, Hd. reflexivity.
Qed.

Lemma main_on_unnamed_platform_witness :
  main "freebsd14" desktop iter_insertion args_current =
    ([], Raises TypeError).
Proof.
  apply (main_on_unnamed_platform "freebsd14" desktop iter_insertion
           args_current).
  - discriminate.
  - reflexivity.
  - reflexivity.
Defined.

(** ** Queries made by [set] *)

(** X12.  A call of [set] that is not answered with "already set" runs the
    whole native enumeration once when it goes on to apply the mode, and
    twice when it rejects the request: once for the membership test and
    once more for the sorted listing. *)
Theorem set_enumeration_passes (os : Win32)
    (iter : pyset -> list Resolution) (width height depth : pyint) :
  mode_eqb (Some (system_metrics os 0, system_metrics os 1)) (width, height)
    = false ->
  enumeration_calls (trace (set "win32" os iter width height depth)) =
    if tuple_in (width, height) (collect (display_settings os) []) then
      seq 0 (S (length (display_settings os)))
    else
      (seq 0 (S (length (display_settings os))) ++
       seq 0 (S (length (display_settings os))))%list.
Proof.
  intros Hc. rewrite set_win32. cbv zeta. rewrite Hc.
  destruct (tuple_in (width, height) _) eqn:Ht; simpl negb; cbv iota.
  - destruct (tuple_in_true _ _ _ Ht) as [w [h [-> [-> Hin]]]].
    destruct (collect_first _ _ Hin) as [mode0 H0].
    rewrite (_win32_set_cases os w h depth mode0 H0).
    unfold trace at 1. unfold fst.
    rewrite !enumeration_calls_app, enumeration_calls_enum_trace.
    destruct ((w =? 0) || (h =? 0)); simpl; rewrite app_nil_r; reflexivity.
  - unfold trace, fst.
    rewrite !enumeration_calls_app, !enumeration_calls_enum_trace.
    rewrite enumeration_calls_prints, app_nil_r. reflexivity.
Qed.

Lemma set_enumeration_passes_witness :
  enumeration_calls (trace (set "win32" desktop iter_insertion (Some 3000)
                              (Some 3000) (Some 32))) =
    if tuple_in (Some 3000, Some 3000) (collect (display_settings desktop) [])
    then seq 0 (S (length (display_settings desktop)))
    else (seq 0 (S (length (display_settings desktop))) ++
          seq 0 (S (length (display_settings desktop))))%list.
Proof.
  apply (set_enumeration_passes desktop iter_insertion (Some 3000)
           (Some 3000) (Some 32)).
  reflexivity.
Defined.

(** X13.  When the driver advertises no mode, [set] can change nothing:
    every request is answered with "already set" or with the rejection
    message and an empty listing, without a native mode-change call. *)
Theorem set_with_empty_mode_table (os : Win32)
    (iter : pyset -> list Resolution) (width height depth : pyint) :
  (forall s, NoDup s -> Permutation s (iter s)) ->
  display_settings os = [] ->
  outcome (set "win32" os iter width height depth) = Returns tt /\
  apply_calls (trace (set "win32" os iter width height depth)) = [] /\
  printed (trace (set "win32" os iter width height depth)) =
    if mode_eqb (Some (system_metrics os 0, system_metrics os 1))
         (width, height)
    then ["Resolution is already set to " ++ fmt width ++ " x " ++ fmt height]
    else [fmt width ++ " x " ++ fmt height ++ " is not an available mode.";
          "Available Modes:"].
Proof.
  intros Hiter Hempty. rewrite set_win32. cbv zeta. rewrite Hempty.
  assert (Hi : iter (collect [] []) = []).
  { apply Permutation_nil, Hiter. constructor. }
  rewrite Hi.
  destruct (mode_eqb _ (width, height)).
  - repeat split.
  - assert (Ht : tuple_in (width, height) (collect [] []) = false).
    { destruct width, height; reflexivity. }
    rewrite Ht. repeat split.
Qed.

Lemma set_with_empty_mode_table_witness :
  outcome (set "win32" headless iter_reversed (Some 800) (Some 600) None) =
    Returns tt /\
  apply_calls (trace (set "win32" headless iter_reversed (Some 800)
                        (Some 600) None)) = [] /\
  printed (trace (set "win32" headless iter_reversed (Some 800) (Some 600)
                    None)) =
    if mode_eqb (Some (system_metrics headless 0, system_metrics headless 1))
         (Some 800, Some 600)
    then ["Resolution is already set to " ++ fmt (Some 800) ++ " x "
            ++ fmt (Some 600)]
    else [fmt (Some 800) ++ " x " ++ fmt (Some 600)
            ++ " is not an available mode.";
          "Available Modes:"].
Proof.
  apply (set_with_empty_mode_table headless iter_reversed (Some 800)
           (Some 600) None).
  - intros s _. apply Permutation_rev.
  - reflexivity.
Defined.

(** ** The Windows backend on its own *)

(** X14.  Called directly, [_win32_set] resets the display, with the one
    call [ChangeDisplaySettings(None, 0)] and whatever the depth, exactly
    when the width or the height is [None] or zero; for the reset it does
    not read the driver table. *)
Theorem _win32_set_resets_iff_falsy (os : Win32) (width height depth : pyint)
    (mode0 : DEVMODE) :
  nth_error (display_settings os) 0 = Some mode0 ->
  (apply_calls (trace (_win32_set os width height depth)) = [(None, 0)] <->
   truthy width && truthy height = false) /\
  (truthy width && truthy height = false ->
   trace (_win32_set os width height depth) =
     [Native (ChangeDisplaySettings None 0)]).
Proof.
  intros H0. split; [split|].
  - intros H. destruct (truthy width && truthy height) eqn:E; [|reflexivity].
    exfalso. apply andb_true_iff in E. destruct E as [Ew Eh].
    destruct width as [w|]; [|discriminate].
    destruct height as [h|]; [|discriminate].
    simpl in Ew, Eh. apply negb_true_iff in Ew, Eh.
    rewrite (_win32_set_cases os w h depth mode0 H0) in H.
    rewrite Ew, Eh in H. simpl in H. discriminate.
  - intros E. rewrite (_win32_set_falsy os width height depth E). reflexivity.
  - intros E. rewrite (_win32_set_falsy os width height depth E). reflexivity.
Qed.

Lemma _win32_set_resets_iff_falsy_witness :
  (apply_calls (trace (_win32_set desktop None (Some 600) (Some 16))) =
     [(None, 0)] <->
   truthy None && truthy (Some 600) = false) /\
  (truthy None && truthy (Some 600) = false ->
   trace (_win32_set desktop None (Some 600) (Some 16)) =
     [Native (ChangeDisplaySettings None 0)]).
Proof.
  apply (_win32_set_resets_iff_falsy desktop None (Some 600) (Some 16)
           mode_800x600).
  reflexivity.
Defined.
